(** * The upload-convert-preview controller of [src/app/page.tsx]

    A shallow embedding of the [HomePage] component's handlers
    ([resetUrls], [ensureFFmpeg], [handleFileChange], [handleConvert]) and of
    the expression guarding the convert button.

    Scope of the model.
    - The component state ([useState] cells and the two [useRef] cells) is a
      record; each handler is a computation in a state-and-exception monad
      over that record, run against the committed state.  React's render and
      effect scheduling is not modelled; the cleanup of lines 88-93 is given
      as [effectCleanup] and is one of the steps of [later], but when React
      runs it is not part of the model.
    - An [async] handler is run to completion: every [await] takes its
      outcome (a value or a thrown value) from an environment [Env] that is
      universally quantified in the theorems.  Interleaving of two handlers
      is not modelled.
    - Object URLs are natural-number handles handed out by a counter, with a
      registry of the live ones.
    - File names are strings of 8-bit characters; [toLowerCase] acts on A-Z.
    - The engine's fractional progress is a rational number; [Math.round] is
      rounding half up. *)

From Stdlib Require Import ZArith QArith Qround String Ascii List Bool Lia Lqa.
From Stdlib Require Import DecimalString.
From stdpp Require Import base option gmap.
Import ListNotations.

Local Open Scope string_scope.
Local Open Scope Z_scope.

(** ** JavaScript string operations used by line 110 *)

Module Js.

(** [s.split(sep)] for a one-character separator: never an empty array. *)
Fixpoint split (sep : ascii) (s : string) : list string :=
  match s with
  | EmptyString => [EmptyString]
  | String c rest =>
      if Ascii.eqb c sep then EmptyString :: split sep rest
      else match split sep rest with
           | seg :: segs => String c seg :: segs
           | [] => [String c EmptyString]
           end
  end.

(** [a.pop()]: the last element, [None] standing for [undefined]. *)
Definition pop (a : list string) : option string := last a.

Definition lower_char (c : ascii) : ascii :=
  let n := nat_of_ascii c in
  if (65 <=? n)%nat && (n <=? 90)%nat then ascii_of_nat (n + 32) else c.

Fixpoint toLowerCase (s : string) : string :=
  match s with
  | EmptyString => EmptyString
  | String c rest => String (lower_char c) (toLowerCase rest)
  end.

(** The character class [[a-z0-9]]. *)
Definition is_az09 (c : ascii) : bool :=
  let n := nat_of_ascii c in
  ((97 <=? n)%nat && (n <=? 122)%nat) || ((48 <=? n)%nat && (n <=? 57)%nat).

(** [s.replace(/[^a-z0-9]/g, '')]. *)
Fixpoint strip_non_az09 (s : string) : string :=
  match s with
  | EmptyString => EmptyString
  | String c rest =>
      if is_az09 c then String c (strip_non_az09 rest) else strip_non_az09 rest
  end.

(** ['lit' + v] where [v] may be [undefined]. *)
Definition concat_opt (lit : string) (v : option string) : string :=
  lit ++ match v with Some x => x | None => "undefined" end.

(** [a || b] on strings: the empty string is the only falsy one. *)
Definition or_else (a b : string) : string :=
  match a with EmptyString => b | _ => a end.

(** [String(n)] for an integer. *)
Definition of_Z (n : Z) : string := NilZero.string_of_int (Z.to_int n).

End Js.

(** Line 110.  [+] binds tighter than [||], and the optional chain
    [pop()?.toLowerCase().replace(..)] short-circuits as a whole. *)
Definition derivedExtension (name : string) : option string :=
  match Js.pop (Js.split "." name) with
  | Some seg => Some (Js.strip_non_az09 (Js.toLowerCase seg))
  | None => None
  end.

Definition inputName (name : string) : string :=
  Js.or_else (Js.concat_opt "source." (derivedExtension name)) "mp4".

Definition outputName : string := "realified.mp4".

(** ** Data *)

Module Stage.
Inductive t := idle | loadingCore | ready | processing | complete | error.

Definition eqb (a b : t) : bool :=
  match a, b with
  | idle, idle | loadingCore, loadingCore | ready, ready
  | processing, processing | complete, complete | error, error => true
  | _, _ => false
  end.
End Stage.

(** A browser [File]: its name and its bytes. *)
Record File := { name : string; contents : list Byte.byte }.

(** An object URL, and what it dereferences to. *)
Definition Url := nat.

Inductive UrlTarget :=
| OfFile (f : File)
| OfBlob (parts : list Byte.byte) (type : string).

(** An engine instance made by [new FFmpegConstructor()]. *)
Definition FFmpeg := nat.

(** What a [throw] or a rejected promise carries: an [Error] instance with
    its [message], or any other value. *)
Inductive Thrown :=
| JsError (message : string)
| NonError.

Inductive Result (A : Type) :=
| Ok (a : A)
| Throw (t : Thrown).
Arguments Ok {A} a.
Arguments Throw {A} t.

(** Observable actions, in the order they happen. *)
Inductive Event :=
| SetStage (s : Stage.t)
| SetProgress (n : Z)
| ImportFFmpeg
| NewFFmpeg (i : FFmpeg)
| OnProgress (i : FFmpeg)
| Load (i : FFmpeg)
| FetchFile (f : File)
| DeleteFile (i : FFmpeg) (path : string)
| WriteFile (i : FFmpeg) (path : string) (data : list Byte.byte)
| Exec (i : FFmpeg) (args : list string)
| ReadFile (i : FFmpeg) (path : string)
| CreateObjectURL (u : Url) (o : UrlTarget)
| RevokeObjectURL (u : Url)
| ConsoleError (t : Thrown).

(** Bootstrap, virtual-filesystem access and exec. *)
Definition engine_event (e : Event) : bool :=
  match e with
  | ImportFFmpeg | NewFFmpeg _ | OnProgress _ | Load _
  | DeleteFile _ _ | WriteFile _ _ _ | Exec _ _ | ReadFile _ _ => true
  | _ => false
  end.

Definition progress_of (e : Event) : option Z :=
  match e with SetProgress n => Some n | _ => None end.

Definition stage_of (e : Event) : option Stage.t :=
  match e with SetStage s => Some s | _ => None end.

(** The component: seven state cells (lines 14-20), two refs (lines 22-23),
    the browser's object-URL registry with its counters, and the trace. *)
Record World := {
  stage : Stage.t;
  stageMessage : string;
  progress : Z;
  sourceUrl : option Url;
  resultUrl : option Url;
  fileName : option string;
  error : option string;
  ffmpegRef : option FFmpeg;
  fileRef : option File;
  objectUrls : gmap Url UrlTarget;
  nextUrl : Url;
  nextInstance : FFmpeg;
  trace : list Event
}.

Definition with_stage (v : Stage.t) (w : World) : World :=
  {| stage := v; stageMessage := stageMessage w; progress := progress w;
     sourceUrl := sourceUrl w; resultUrl := resultUrl w;
     fileName := fileName w; error := error w; ffmpegRef := ffmpegRef w;
     fileRef := fileRef w; objectUrls := objectUrls w; nextUrl := nextUrl w;
     nextInstance := nextInstance w; trace := trace w |}.
Definition with_stageMessage (v : string) (w : World) : World :=
  {| stage := stage w; stageMessage := v; progress := progress w;
     sourceUrl := sourceUrl w; resultUrl := resultUrl w;
     fileName := fileName w; error := error w; ffmpegRef := ffmpegRef w;
     fileRef := fileRef w; objectUrls := objectUrls w; nextUrl := nextUrl w;
     nextInstance := nextInstance w; trace := trace w |}.
Definition with_progress (v : Z) (w : World) : World :=
  {| stage := stage w; stageMessage := stageMessage w; progress := v;
     sourceUrl := sourceUrl w; resultUrl := resultUrl w;
     fileName := fileName w; error := error w; ffmpegRef := ffmpegRef w;
     fileRef := fileRef w; objectUrls := objectUrls w; nextUrl := nextUrl w;
     nextInstance := nextInstance w; trace := trace w |}.
Definition with_sourceUrl (v : option Url) (w : World) : World :=
  {| stage := stage w; stageMessage := stageMessage w;
     progress := progress w; sourceUrl := v; resultUrl := resultUrl w;
     fileName := fileName w; error := error w; ffmpegRef := ffmpegRef w;
     fileRef := fileRef w; objectUrls := objectUrls w; nextUrl := nextUrl w;
     nextInstance := nextInstance w; trace := trace w |}.
Definition with_resultUrl (v : option Url) (w : World) : World :=
  {| stage := stage w; stageMessage := stageMessage w;
     progress := progress w; sourceUrl := sourceUrl w; resultUrl := v;
     fileName := fileName w; error := error w; ffmpegRef := ffmpegRef w;
     fileRef := fileRef w; objectUrls := objectUrls w; nextUrl := nextUrl w;
     nextInstance := nextInstance w; trace := trace w |}.
Definition with_fileName (v : option string) (w : World) : World :=
  {| stage := stage w; stageMessage := stageMessage w;
     progress := progress w; sourceUrl := sourceUrl w;
     resultUrl := resultUrl w; fileName := v; error := error w;
     ffmpegRef := ffmpegRef w; fileRef := fileRef w;
     objectUrls := objectUrls w; nextUrl := nextUrl w;
     nextInstance := nextInstance w; trace := trace w |}.
Definition with_error (v : option string) (w : World) : World :=
  {| stage := stage w; stageMessage := stageMessage w;
     progress := progress w; sourceUrl := sourceUrl w;
     resultUrl := resultUrl w; fileName := fileName w; error := v;
     ffmpegRef := ffmpegRef w; fileRef := fileRef w;
     objectUrls := objectUrls w; nextUrl := nextUrl w;
     nextInstance := nextInstance w; trace := trace w |}.
Definition with_ffmpegRef (v : option FFmpeg) (w : World) : World :=
  {| stage := stage w; stageMessage := stageMessage w;
     progress := progress w; sourceUrl := sourceUrl w;
     resultUrl := resultUrl w; fileName := fileName w; error := error w;
     ffmpegRef := v; fileRef := fileRef w; objectUrls := objectUrls w;
     nextUrl := nextUrl w; nextInstance := nextInstance w;
     trace := trace w |}.
Definition with_fileRef (v : option File) (w : World) : World :=
  {| stage := stage w; stageMessage := stageMessage w;
     progress := progress w; sourceUrl := sourceUrl w;
     resultUrl := resultUrl w; fileName := fileName w; error := error w;
     ffmpegRef := ffmpegRef w; fileRef := v; objectUrls := objectUrls w;
     nextUrl := nextUrl w; nextInstance := nextInstance w;
     trace := trace w |}.
Definition with_objectUrls (v : gmap Url UrlTarget) (w : World) : World :=
  {| stage := stage w; stageMessage := stageMessage w;
     progress := progress w; sourceUrl := sourceUrl w;
     resultUrl := resultUrl w; fileName := fileName w; error := error w;
     ffmpegRef := ffmpegRef w; fileRef := fileRef w; objectUrls := v;
     nextUrl := nextUrl w; nextInstance := nextInstance w;
     trace := trace w |}.
Definition with_nextUrl (v : Url) (w : World) : World :=
  {| stage := stage w; stageMessage := stageMessage w;
     progress := progress w; sourceUrl := sourceUrl w;
     resultUrl := resultUrl w; fileName := fileName w; error := error w;
     ffmpegRef := ffmpegRef w; fileRef := fileRef w;
     objectUrls := objectUrls w; nextUrl := v;
     nextInstance := nextInstance w; trace := trace w |}.
Definition with_nextInstance (v : FFmpeg) (w : World) : World :=
  {| stage := stage w; stageMessage := stageMessage w;
     progress := progress w; sourceUrl := sourceUrl w;
     resultUrl := resultUrl w; fileName := fileName w; error := error w;
     ffmpegRef := ffmpegRef w; fileRef := fileRef w;
     objectUrls := objectUrls w; nextUrl := nextUrl w; nextInstance := v;
     trace := trace w |}.
Definition with_trace (v : list Event) (w : World) : World :=
  {| stage := stage w; stageMessage := stageMessage w;
     progress := progress w; sourceUrl := sourceUrl w;
     resultUrl := resultUrl w; fileName := fileName w; error := error w;
     ffmpegRef := ffmpegRef w; fileRef := fileRef w;
     objectUrls := objectUrls w; nextUrl := nextUrl w;
     nextInstance := nextInstance w; trace := v  |}.

(** The state after mounting (the initial values of lines 14-23). *)
Definition initial : World :=
  {| stage := Stage.idle;
     stageMessage := "Drop in an animated clip to begin.";
     progress := 0; sourceUrl := None; resultUrl := None; fileName := None;
     error := None; ffmpegRef := None; fileRef := None; objectUrls := ∅;
     nextUrl := 0%nat; nextInstance := 0%nat; trace := [] |}.

(** ** The monad: state over [World], with JavaScript exceptions *)

Definition M (A : Type) : Type := World -> Result A * World.

Definition ret {A} (a : A) : M A := fun w => (Ok a, w).

Definition bind {A B} (m : M A) (k : A -> M B) : M B :=
  fun w => match m w with
           | (Ok a, w') => k a w'
           | (Throw t, w') => (Throw t, w')
           end.

(** [try { body } catch (e) { handler e }]. *)
Definition try_catch {A} (body : M A) (handler : Thrown -> M A) : M A :=
  fun w => match body w with
           | (Ok a, w') => (Ok a, w')
           | (Throw t, w') => handler t w'
           end.

(** [try { body } catch { }]: the thrown value is dropped. *)
Definition try_ignore (body : M unit) : M unit :=
  try_catch body (fun _ => ret tt).

(** The settled value of an awaited promise. *)
Definition await {A} (r : Result A) : M A := fun w => (r, w).

Definition gets {A} (f : World -> A) : M A := fun w => (Ok (f w), w).
Definition modify (f : World -> World) : M unit := fun w => (Ok tt, f w).
Definition log (e : Event) : M unit :=
  modify (fun w => with_trace (trace w ++ [e]) w).

Declare Scope js_scope.
Delimit Scope js_scope with js.
Notation "'let*' x ':=' m 'in' k" := (bind m (fun x => k))
  (at level 10, x name, m at level 100, k at level 200) : js_scope.
Notation "m '>>' k" := (bind m (fun _ => k))
  (at level 90, right associativity) : js_scope.
Local Open Scope js_scope.

(** *** State setters and browser calls *)

Definition setStage (s : Stage.t) : M unit :=
  log (SetStage s) >> modify (with_stage s).
Definition setProgress (n : Z) : M unit :=
  log (SetProgress n) >> modify (with_progress n).
Definition setStageMessage (m : string) : M unit := modify (with_stageMessage m).
Definition setSourceUrl (u : option Url) : M unit := modify (with_sourceUrl u).
Definition setResultUrl (u : option Url) : M unit := modify (with_resultUrl u).
Definition setFileName (n : option string) : M unit := modify (with_fileName n).
Definition setError (e : option string) : M unit := modify (with_error e).

(** [URL.createObjectURL]: a URL never handed out before. *)
Definition createObjectURL (o : UrlTarget) : M Url :=
  let* u := gets nextUrl in
  modify (fun w => with_nextUrl (S u) (with_objectUrls (<[u := o]> (objectUrls w)) w)) >>
  log (CreateObjectURL u o) >>
  ret u.

(** [URL.revokeObjectURL]: no effect on a URL that is not live. *)
Definition revokeObjectURL (u : Url) : M unit :=
  modify (fun w => with_objectUrls (delete u (objectUrls w)) w) >>
  log (RevokeObjectURL u).

Definition consoleError (t : Thrown) : M unit := log (ConsoleError t).

(** Lines 9-11. *)
Definition HUMANIZING_FILTER : string :=
  "fps=min(30\,fps),scale=iw:ih:flags=bicubic,eq=contrast=1.12:brightness=0.02:saturation=1.28:gamma=1.03," ++
  "unsharp=5:5:0.85:5:5:0.35,noise=alls=12:allf=t+u,format=yuv420p".

(** [Math.round]: to the nearest integer, halves upwards. *)
Definition Math_round (x : Q) : Z := Qfloor (x + (1 # 2)).

(** Line 49. *)
Definition computed (currentProgress : Q) : Z :=
  Z.min 97 (Math_round (currentProgress * 100)).

(** Lines 48-52: the handler registered for the engine's progress events. *)
Definition progressHandler (currentProgress : Q) : M unit :=
  setProgress (computed currentProgress) >>
  setStageMessage
    ("Analyzing motion vectors… " ++ Js.of_Z (computed currentProgress) ++ "%").

(** Lines 25-34. *)
Definition resetUrls : M unit :=
  let* s := gets sourceUrl in
  match s with Some u => revokeObjectURL u | None => ret tt end >>
  let* r := gets resultUrl in
  match r with Some u => revokeObjectURL u | None => ret tt end >>
  setSourceUrl None >>
  setResultUrl None.

(** Lines 68-86.  The argument is [event.target.files?.[0]]. *)
Definition handleFileChange (file : option File) : M unit :=
  match file with
  | None => ret tt
  | Some file =>
      resetUrls >>
      setError None >>
      let* objectUrl := createObjectURL (OfFile file) in
      modify (with_fileRef (Some file)) >>
      setSourceUrl (Some objectUrl) >>
      setFileName (Some (name file)) >>
      setStage Stage.ready >>
      setStageMessage "Ready to rebuild lighting and texture realism." >>
      setProgress 0
  end.

(** Lines 88-93: the cleanup of the effect. *)
Definition effectCleanup : M unit :=
  resetUrls >> modify (with_fileRef None).

(** ** The engine and the other awaited calls

    What each awaited call settles to is the environment's choice.  The four
    [deleteFile] calls of one conversion are told apart by their position. *)
Record Env := {
  on_import : Result unit;
  on_load : Result unit;
  on_fetchFile : File -> Result (list Byte.byte);
  on_deleteFile : nat -> string -> Result unit;
  on_writeFile : string -> list Byte.byte -> Result unit;
  on_exec : list string -> list Q * Result unit;
  on_readFile : string -> Result (list Byte.byte)
}.

Section Controller.

Variable env : Env.

(** Lines 45-46: [await import('@ffmpeg/ffmpeg')] and the constructor. *)
Definition newFFmpeg : M FFmpeg :=
  log ImportFFmpeg >>
  await (on_import env) >>
  let* i := gets nextInstance in
  modify (with_nextInstance (S i)) >>
  log (NewFFmpeg i) >>
  ret i.

Definition on_progress (i : FFmpeg) : M unit := log (OnProgress i).

Definition load (i : FFmpeg) : M unit :=
  log (Load i) >> await (on_load env).

Definition fetchFile (f : File) : M (list Byte.byte) :=
  log (FetchFile f) >> await (on_fetchFile env f).

Definition deleteFile (k : nat) (i : FFmpeg) (path : string) : M unit :=
  log (DeleteFile i path) >> await (on_deleteFile env k path).

Definition writeFile (i : FFmpeg) (path : string) (data : list Byte.byte) : M unit :=
  log (WriteFile i path data) >> await (on_writeFile env path data).

Definition readFile (i : FFmpeg) (path : string) : M (list Byte.byte) :=
  log (ReadFile i path) >> await (on_readFile env path).

(** The progress events of one run, delivered to the registered handler. *)
Fixpoint deliver (events : list Q) : M unit :=
  match events with
  | [] => ret tt
  | p :: rest => progressHandler p >> deliver rest
  end.

(** Every instance kept in [ffmpegRef] went through line 48, so [exec]
    reports its progress to [progressHandler]. *)
Definition exec (i : FFmpeg) (args : list string) : M unit :=
  log (Exec i args) >>
  deliver (fst (on_exec env args)) >>
  await (snd (on_exec env args)).

(** Lines 36-66. *)
Definition ensureFFmpeg : M FFmpeg :=
  let* current := gets ffmpegRef in
  match current with
  | Some instance => ret instance
  | None =>
      setStage Stage.loadingCore >>
      setStageMessage "Booting accelerated video core…" >>
      setProgress 5 >>
      let* instance := newFFmpeg in
      on_progress instance >>
      load instance >>
      modify (with_ffmpegRef (Some instance)) >>
      setStage Stage.ready >>
      setStageMessage "Core ready. Press “Convert” to photorealize your footage." >>
      setProgress 0 >>
      ret instance
  end.

Definition execArgs (inputName : string) : list string :=
  ["-i"; inputName; "-vf"; HUMANIZING_FILTER; "-c:v"; "libx264";
   "-preset"; "veryfast"; "-crf"; "20"; "-c:a"; "copy"; outputName].

(** Lines 166-170. *)
Definition errorText (conversionError : Thrown) : string :=
  match conversionError with
  | JsError message => message
  | NonError => "Unexpected error while converting video."
  end.

(** Lines 101-161: the body of the [try]. *)
Definition convertBody : M unit :=
  let* ffmpeg := ensureFFmpeg in
  setStage Stage.processing >>
  setStageMessage "Re-lighting frames and rebuilding photoreal surfaces…" >>
  setProgress 8 >>
  setError None >>
  let* current := gets fileRef in
  match current with
  | None => await (Throw (JsError "Cannot read properties of null (reading 'name')"))
  | Some inputFile =>
      let inputName := inputName (name inputFile) in
      let* data := fetchFile inputFile in
      try_ignore (deleteFile 0 ffmpeg inputName) >>
      try_ignore (deleteFile 1 ffmpeg outputName) >>
      writeFile ffmpeg inputName data >>
      setStageMessage "Synthesizing photoreal motion…" >>
      exec ffmpeg (execArgs inputName) >>
      setStageMessage "Finalizing filmic grading…" >>
      setProgress 98 >>
      let* outputData := readFile ffmpeg outputName in
      try_ignore (deleteFile 2 ffmpeg inputName >> deleteFile 3 ffmpeg outputName) >>
      let* url := createObjectURL (OfBlob outputData "video/mp4") in
      setResultUrl (Some url) >>
      setStage Stage.complete >>
      setStageMessage "Done. Compare the photoreal render against the original." >>
      setProgress 100
  end.

(** Lines 95-172. *)
Definition handleConvert : M unit :=
  let* staged := gets fileRef in
  match staged with
  | None => setError (Some "Upload an animated clip first.")
  | Some _ =>
      try_catch convertBody
        (fun conversionError =>
           consoleError conversionError >>
           setStage Stage.error >>
           setStageMessage "Something went wrong during video conversion." >>
           setError (Some (errorText conversionError)))
  end.

(** A ref or state cell holding an object or [null]. *)
Definition truthy {A} (v : option A) : bool :=
  match v with Some _ => true | None => false end.

(** Lines 174-183. *)
Definition heroCtas (w : World) : string :=
  let ready := Stage.eqb (stage w) Stage.ready && truthy (fileRef w) in
  if Stage.eqb (stage w) Stage.processing then "Processing…"
  else if Stage.eqb (stage w) Stage.loadingCore then "Initializing…"
  else if ready then "Convert to Real Footage" else "Load Animated Clip".

(** Line 227: the [disabled] attribute of the convert button. *)
Definition convertDisabled (w : World) : bool :=
  Stage.eqb (stage w) Stage.processing
  || (negb (truthy (fileRef w))
      && negb (Stage.eqb (stage w) Stage.loadingCore)).

(** Line 226: a click reaches [handleConvert] unless the button is
    disabled. *)
Definition clickConvert : M unit :=
  fun w => if convertDisabled w then (Ok tt, w) else handleConvert w.

End Controller.

(** ** Scenarios used as concrete inputs *)

(** Every awaited call succeeds; the engine reports progress 0, 1/2 and 1
    and produces the bytes [out]. *)
Definition env_ok (out : list Byte.byte) : Env :=
  {| on_import := Ok tt; on_load := Ok tt;
     on_fetchFile := fun f => Ok (contents f);
     on_deleteFile := fun _ _ => Ok tt;
     on_writeFile := fun _ _ => Ok tt;
     on_exec := fun _ => ([0 # 1; 1 # 2; 1 # 1]%Q, Ok tt);
     on_readFile := fun _ => Ok out |}.

Definition clip : File := {| name := "clip.MOV"; contents := [Byte.x00] |}.

(** A file has been selected. *)
Definition w_selected : World := snd (handleFileChange (Some clip) initial).

(** Its first conversion has completed. *)
Definition w_converted : World :=
  snd (handleConvert (env_ok [Byte.x01]) w_selected).

(** The same file has been converted a second time. *)
Definition w_reconverted : World :=
  snd (handleConvert (env_ok [Byte.x02]) w_converted).

(** A conversion has been requested and is suspended at line 45, inside
    the bootstrap. *)
Definition w_booting : World :=
  snd ((setStage Stage.loadingCore >>
        setStageMessage "Booting accelerated video core…" >>
        setProgress 5) w_selected).

(** The events a run appended to the trace. *)
Definition events_since (w w' : World) : list Event :=
  drop (length (trace w)) (trace w').

Definition progress_values (es : list Event) : list Z := omap progress_of es.
Definition stages_entered (es : list Event) : list Stage.t := omap stage_of es.

Fixpoint nondecreasing (l : list Z) : bool :=
  match l with
  | a :: (b :: _) as rest => (a <=? b) && nondecreasing rest
  | _ => true
  end.

Definition live (u : Url) (w : World) : Prop := is_Some (objectUrls w !! u).

(** The handles in the two slots were handed out earlier. *)
Definition slots_fresh (w : World) : Prop :=
  forall u, sourceUrl w = Some u \/ resultUrl w = Some u -> (u < nextUrl w)%nat.

(** The world after the handler of lines 48-52 has seen the events [ps]. *)
Definition delivered (ps : list Q) (w : World) : World :=
  {| stage := stage w;
     stageMessage :=
       fold_left
         (fun _ p => "Analyzing motion vectors… " ++ Js.of_Z (computed p) ++ "%")
         ps (stageMessage w);
     progress := fold_left (fun _ p => computed p) ps (progress w);
     sourceUrl := sourceUrl w; resultUrl := resultUrl w;
     fileName := fileName w; error := error w; ffmpegRef := ffmpegRef w;
     fileRef := fileRef w; objectUrls := objectUrls w; nextUrl := nextUrl w;
     nextInstance := nextInstance w;
     trace := trace w ++ map (fun p => SetProgress (computed p)) ps |}.

(** [w'] is reached from [w] by running handlers of the component. *)
Inductive later : World -> World -> Prop :=
| later_refl w : later w w
| later_select file w w1 w2 :
    later w w1 -> handleFileChange file w1 = (Ok tt, w2) -> later w w2
| later_convert env w w1 w2 :
    later w w1 -> handleConvert env w1 = (Ok tt, w2) -> later w w2
| later_cleanup w w1 w2 :
    later w w1 -> effectCleanup w1 = (Ok tt, w2) -> later w w2.

(** Revoking what a slot holds, if anything. *)
Definition release (slot : option Url) (m : gmap Url UrlTarget) : gmap Url UrlTarget :=
  match slot with Some u => delete u m | None => m end.

(** The object URLs a run created. *)
Definition creations (es : list Event) : list (Url * UrlTarget) :=
  omap (fun e => match e with CreateObjectURL u o => Some (u, o) | _ => None end) es.


(** Lines 41-58: the events of a bootstrap. *)
Definition boot_event (e : Event) : bool :=
  match e with
  | SetStage Stage.loadingCore
  | ImportFFmpeg | NewFFmpeg _ | OnProgress _ | Load _ => true
  | _ => false
  end.

(** The engine throws from [exec] after reporting a quarter of the work. *)
Definition env_exec_fails : Env :=
  {| on_import := Ok tt; on_load := Ok tt;
     on_fetchFile := fun f => Ok (contents f);
     on_deleteFile := fun _ _ => Ok tt;
     on_writeFile := fun _ _ => Ok tt;
     on_exec := fun _ => ([1 # 4]%Q, Throw (JsError "Aborted()"));
     on_readFile := fun _ => Ok [] |}.


(** The conversion requested in [w] runs to line 161 and ends in [w']. *)
Definition converts (env : Env) (w w' : World) : Prop :=
  convertBody env w = (Ok tt, w').

(** The first awaited step of lines 102-149 that fails, in program order:
    bootstrap (when no instance is cached), staging, exec, read. *)
Definition first_failure (env : Env) (w : World) (f : File) : option Thrown :=
  let failed {A} (r : Result A) (next : option Thrown) :=
    match r with Throw t => Some t | Ok _ => next end in
  let conversion :=
    failed (on_fetchFile env f)
      (failed (on_writeFile env (inputName (name f))
                 (match on_fetchFile env f with Ok d => d | Throw _ => [] end))
         (failed (snd (on_exec env (execArgs (inputName (name f)))))
            (failed (on_readFile env outputName) None))) in
  match ffmpegRef w with
  | Some _ => conversion
  | None => failed (on_import env) (failed (on_load env) conversion)
  end.

(** The engine has been bootstrapped for the selected file. *)
Definition w_core_ready : World := snd (ensureFFmpeg (env_ok []) w_selected).

(** The progress values of a conversion up to the finalize step: 5 and 0
    when a bootstrap is needed, 8 on entering 'processing', then one value
    per progress event of the engine. *)
Definition before_finalize (w : World) (ps : list Q) : list Z :=
  match ffmpegRef w with Some _ => [] | None => [5; 0] end
  ++ 8 :: map computed ps.

(** A handle that is live, known to the browser, and held by no slot. *)
Definition leaked (u : Url) (w : World) : Prop :=
  live u w /\ (u < nextUrl w)%nat /\
  sourceUrl w <> Some u /\ resultUrl w <> Some u.

(** ** Vocabulary for the further properties *)

(** What line 110 does to the segment [pop()] returns. *)
Definition sanitized (seg : string) : string :=
  Js.strip_non_az09 (Js.toLowerCase seg).

(** The string has no ['.'] in it. *)
Fixpoint dotless (s : string) : bool :=
  match s with
  | EmptyString => true
  | String c rest => negb (Ascii.eqb c ".") && dotless rest
  end.

(** Every character is in [[a-z0-9]]. *)
Fixpoint all_az09 (s : string) : bool :=
  match s with
  | EmptyString => true
  | String c rest => Js.is_az09 c && all_az09 rest
  end.

Definition is_revocation (e : Event) : bool :=
  match e with RevokeObjectURL _ => true | _ => false end.






(** * Theorems *)

Local Open Scope list_scope.

(** ** Filename sanitization (line 110) *)

Lemma split_nonempty sep s : Js.split sep s <> [].
Proof.
  induction s as [|c rest IH]; simpl; [discriminate|].
  destruct (Ascii.eqb c sep); [discriminate|].
  destruct (Js.split sep rest); discriminate.
Qed.

Lemma derivedExtension_defined n : exists ext, derivedExtension n = Some ext.
Proof.
  unfold derivedExtension, Js.pop.
  destruct (last (Js.split "." n)) as [seg|] eqn:E; [eauto|].
  apply last_None in E. now apply split_nonempty in E.
Qed.

(** The name passed to the engine is always ['source.'] followed by the
    sanitized last dot-separated segment: the ['mp4'] operand of [||] is
    never selected. *)
Lemma inputName_no_fallback n :
  exists ext, derivedExtension n = Some ext /\ inputName n = ("source." ++ ext)%string.
Proof.
  destruct (derivedExtension_defined n) as [ext E].
  exists ext. split; [exact E|]. unfold inputName. now rewrite E.
Qed.

Example inputName_clip_MOV : inputName "clip.MOV" = "source.mov".
Proof. reflexivity. Qed.

Example inputName_clip_tar_gz : inputName "clip.tar.gz!" = "source.gz".
Proof. reflexivity. Qed.

(** C1 (evaluated at the failing inputs): for the names "noext", "clip."
    and "clip.!?" the derived input name is "source.noext", "source." and
    "source."; the fallback extension mp4 is used in none of them, and the
    last two carry an empty extension. *)
Theorem inputName_fallback_unused :
  inputName "noext" = "source.noext" /\
  inputName "clip." = "source." /\
  inputName "clip.!?" = "source.".
Proof. repeat split. Qed.

(** ** File selection (lines 68-86) *)

(** C10: when the selection event carries no file, [handleFileChange]
    returns at once and the whole state (stage, progress, status message,
    error, staged file, both preview handles, registry, trace) is left as
    it was. *)
Theorem handleFileChange_no_file w : handleFileChange None w = (Ok tt, w).
Proof. reflexivity. Qed.

(** ** Symbolic execution of the handlers *)

Arguments inputName : simpl never.
Arguments computed : simpl never.

Ltac run :=
  cbv beta iota zeta delta
    [handleConvert convertBody ensureFFmpeg handleFileChange resetUrls
     clickConvert effectCleanup newFFmpeg on_progress load fetchFile
     deleteFile writeFile readFile exec progressHandler
     setStage setProgress setStageMessage setSourceUrl setResultUrl
     setFileName setError createObjectURL revokeObjectURL consoleError
     bind ret gets modify log await try_catch try_ignore delivered
     stage stageMessage progress sourceUrl resultUrl fileName error
     ffmpegRef fileRef objectUrls nextUrl nextInstance trace
     with_stage with_stageMessage with_progress with_sourceUrl
     with_resultUrl with_fileName with_error with_ffmpegRef with_fileRef
     with_objectUrls with_nextUrl with_nextInstance with_trace
     on_import on_load on_fetchFile on_deleteFile on_writeFile on_exec
     on_readFile].

Lemma deliver_spec ps w : deliver ps w = (Ok tt, delivered ps w).
Proof.
  revert w. induction ps as [|p ps IH]; intros w.
  - destruct w. unfold delivered, deliver, ret. cbn. now rewrite app_nil_r.
  - cbn [deliver]. unfold bind at 1.
    destruct w as [st msg pr src res fn err ff fr urls nu ni tr].
    run. rewrite IH. run. cbn [fold_left map]. now rewrite <- app_assoc.
Qed.

(** Split on the outcome of the innermost awaited call the goal is stuck on. *)
Ltac case_outcome :=
  match goal with
  | |- context [match ?x with Ok _ => _ | Throw _ => _ end] =>
      lazymatch x with
      | context [match _ with _ => _ end] => fail
      | _ => destruct x eqn:?
      end
  end.

Lemma Ok_Throw_absurd {A} (a : A) t (w w' : World) :
  (Ok a, w) = (Throw t, w') -> False.
Proof. intros H. apply (f_equal fst) in H. discriminate H. Qed.

Lemma Throw_Ok_absurd {A} (a : A) t (w w' : World) :
  (Throw t, w) = (Ok a, w') -> False.
Proof. intros H. apply (f_equal fst) in H. discriminate H. Qed.

Lemma Ok_inv {A} (a a' : A) (w w' : World) :
  (Ok a, w) = (Ok a', w') -> a = a' /\ w = w'.
Proof. intros H. now injection H. Qed.

Lemma Throw_inv {A} t t' (w w' : World) :
  (@Throw A t, w) = (Throw t', w') -> t = t' /\ w = w'.
Proof. intros H. now injection H. Qed.

(** Use an equation between the computed outcome of a run and a named one. *)
Ltac outcome :=
  let E := fresh "E" in
  intros E;
  first [ destruct (Ok_Throw_absurd _ _ _ _ E)
        | destruct (Throw_Ok_absurd _ _ _ _ E)
        | apply Throw_inv in E; destruct E as [<- <-]
        | apply Ok_inv in E;
          first [ destruct E as [<- <-] | destruct E as [_ <-] ] ].

Ltac eval_run :=
  run; repeat (first [rewrite deliver_spec | case_outcome]; run).

(** Bring the events of a run into the form [e1 :: e2 :: ...]. *)
Ltac since :=
  cbn [fst snd]; unfold events_since; run; rewrite <- ?app_assoc; cbn [app];
  rewrite drop_app_length.

Lemma progress_values_app es es' :
  progress_values (es ++ es') = progress_values es ++ progress_values es'.
Proof. apply omap_app. Qed.

Lemma progress_values_delivered ps :
  progress_values (map (fun p => SetProgress (computed p)) ps) = map computed ps.
Proof. induction ps as [|p ps IH]; [reflexivity|]. cbn. f_equal. exact IH. Qed.

(** ** Conversion requested with nothing staged (lines 96-99) *)

(** C2 (as amended): when no file is staged, [handleConvert] returns at
    once having set only the error message to the fixed text 'Upload an
    animated clip first.'; the stage keeps its value and the trace gains
    no event, so there is no bootstrap, no virtual-filesystem access and
    no exec. *)
Theorem handleConvert_no_file env w :
  fileRef w = None ->
  handleConvert env w
    = (Ok tt, with_error (Some "Upload an animated clip first.") w)
  /\ stage (snd (handleConvert env w)) = stage w
  /\ error (snd (handleConvert env w)) = Some "Upload an animated clip first."
  /\ events_since w (snd (handleConvert env w)) = [].
Proof.
  intros H.
  assert (E : handleConvert env w
              = (Ok tt, with_error (Some "Upload an animated clip first.") w)).
  { unfold handleConvert, bind, gets. now rewrite H. }
  rewrite E. repeat split. unfold events_since. cbn. apply drop_all.
Qed.

Lemma handleConvert_no_file_witness :
  fileRef initial = None /\
  stage (snd (handleConvert (env_ok []) initial)) = stage initial.
Proof.
  split; [reflexivity|].
  exact (proj1 (proj2 (handleConvert_no_file (env_ok []) initial eq_refl))).
Defined.

(** C2 (as stated) fails: in the initial state nothing is staged, and after
    a conversion request the stage is still 'idle', not 'error'. *)
Lemma handleConvert_no_file_stage_not_error :
  fileRef initial = None /\
  stage (snd (handleConvert (env_ok []) initial)) = Stage.idle /\
  stage (snd (handleConvert (env_ok []) initial)) <> Stage.error.
Proof. repeat split. discriminate. Qed.

(** ** File selection with a file (lines 75-83) *)


Lemma slots_fresh_initial : slots_fresh initial.
Proof. intros u [H|H]; discriminate. Qed.


(** Selecting a file keeps the slots fresh. *)
Lemma slots_fresh_handleFileChange file w w' :
  slots_fresh w -> handleFileChange file w = (Ok tt, w') -> slots_fresh w'.
Proof.
  destruct file as [f|]; [|intros H [= <-]; exact H].
  destruct w as [st msg pr src res fn err ff fr urls nu ni tr].
  intros _. destruct src as [s|], res as [r|]; run; intros [= <-];
    unfold slots_fresh; run; intros u [[= <-]|[=]]; lia.
Qed.

(** ** The convert button (lines 223-230) *)

(** C4 (as amended): in every state whose stage is 'processing' the
    convert button is disabled, and a click is ignored: the handler does
    not run and the state is left as it was. *)
Theorem clickConvert_processing env w :
  stage w = Stage.processing ->
  convertDisabled w = true /\ clickConvert env w = (Ok tt, w).
Proof.
  intros H. unfold clickConvert, convertDisabled. rewrite H. split; reflexivity.
Qed.

Lemma clickConvert_processing_witness :
  stage (with_stage Stage.processing w_selected) = Stage.processing /\
  clickConvert (env_ok []) (with_stage Stage.processing w_selected)
    = (Ok tt, with_stage Stage.processing w_selected).
Proof.
  split; [reflexivity|].
  exact (proj2 (clickConvert_processing (env_ok [])
                  (with_stage Stage.processing w_selected) eq_refl)).
Defined.

(** In 'loadingCore' the button is enabled, with or without a staged
    file, and [handleConvert] has no guard on the stage. *)
Lemma clickConvert_loadingCore env w :
  stage w = Stage.loadingCore ->
  convertDisabled w = false /\ clickConvert env w = handleConvert env w.
Proof.
  intros H. unfold clickConvert, convertDisabled. rewrite H. cbn.
  rewrite andb_false_r. split; reflexivity.
Qed.

(** C4 (as stated) fails in 'loadingCore': while the first request is
    suspended in the bootstrap, the button is enabled and a second click
    runs the handler, which starts a bootstrap of its own and converts. *)
Lemma clickConvert_loadingCore_not_ignored :
  stage w_booting = Stage.loadingCore /\
  convertDisabled w_booting = false /\
  clickConvert (env_ok []) w_booting <> (Ok tt, w_booting) /\
  List.filter boot_event
    (events_since w_booting (snd (clickConvert (env_ok []) w_booting)))
    = [SetStage Stage.loadingCore; ImportFFmpeg; NewFFmpeg 0%nat;
       OnProgress 0%nat; Load 0%nat] /\
  stage (snd (clickConvert (env_ok []) w_booting)) = Stage.complete.
Proof.
  split; [reflexivity|]. split; [reflexivity|].
  split; [|split; vm_compute; reflexivity].
  intros H. apply (f_equal (fun r => stage (snd r))) in H.
  vm_compute in H. discriminate.
Qed.

(** ** The engine adapter (lines 36-66) *)







(** ** Events of a conversion *)

Lemma Forall_delivered (P : Event -> Prop) ps :
  (forall n, P (SetProgress n)) ->
  Forall P (map (fun p => SetProgress (computed p)) ps).
Proof. intros H. induction ps; constructor; auto. Qed.

Lemma creations_delivered ps rest :
  creations (map (fun p => SetProgress (computed p)) ps ++ rest) = creations rest.
Proof. induction ps as [|p ps IH]; [reflexivity|exact IH]. Qed.

Ltac forall_events :=
  repeat first
    [ apply Forall_nil_2
    | apply Forall_cons_2; [reflexivity|]
    | apply Forall_app_2; [apply Forall_delivered; intros; reflexivity|]
    | apply Forall_delivered; intros; reflexivity ].

Ltac in_events :=
  cbn [In];
  repeat first [ left; reflexivity | right | apply in_or_app; right; cbn [In] ].

Ltac values :=
  since; unfold progress_values; cbn [omap list_omap progress_of];
  rewrite ?omap_app; cbn [omap list_omap progress_of];
  rewrite ?progress_values_delivered.




(** ** Failures (lines 162-171) *)

(** Nothing thrown inside [handleConvert] escapes it. *)
Lemma handleConvert_total env w : exists w', handleConvert env w = (Ok tt, w').
Proof.
  destruct w as [st msg pr src res fn err ff fr urls nu ni tr].
  destruct env as [imp ld fetch del wr ex rd].
  destruct fr as [f|], ff as [i|]; eval_run; eexists; reflexivity.
Qed.

(** A failing bootstrap, staging, exec or read step makes the body of the
    [try] throw what that step threw. *)
Lemma first_failure_throws env w f t :
  fileRef w = Some f -> first_failure env w f = Some t ->
  exists w1, convertBody env w = (Throw t, w1).
Proof.
  destruct w as [st msg pr src res fn err ff fr urls nu ni tr].
  destruct env as [imp ld fetch del wr ex rd].
  cbn [fileRef]. intros ->. unfold first_failure.
  destruct ff as [i|]; eval_run; intros E; try discriminate E;
    injection E as <-; eexists; reflexivity.
Qed.



(** ** Successful conversion (lines 149-161) *)

(** C9: whatever the name (and so the container format) of the staged
    file, a conversion that succeeds has run the engine with
    'realified.mp4' as the output argument, has read that same entry back,
    and holds in the result slot a fresh handle to a blob of those bytes
    with the MIME type 'video/mp4'; it is the only handle the run created. *)
Theorem handleConvert_output env w f w' :
  fileRef w = Some f ->
  converts env w w' ->
  exists i out,
    handleConvert env w = (Ok tt, w') /\
    stage w' = Stage.complete /\
    In (Exec i (execArgs (inputName (name f)))) (events_since w w') /\
    last (execArgs (inputName (name f))) = Some "realified.mp4" /\
    In (ReadFile i "realified.mp4") (events_since w w') /\
    on_readFile env "realified.mp4" = Ok out /\
    resultUrl w' = Some (nextUrl w) /\
    objectUrls w' = <[nextUrl w := OfBlob out "video/mp4"]> (objectUrls w) /\
    creations (events_since w w') = [(nextUrl w, OfBlob out "video/mp4")].
Proof.
  destruct w as [st msg pr src res fn err ff fr urls nu ni tr].
  destruct env as [imp ld fetch del wr ex rd].
  cbn [fileRef]. intros ->. unfold converts.
  destruct ff as [i|]; eval_run; outcome; eexists _, _; run;
    (split; [reflexivity|]); (split; [reflexivity|]);
    (split; [since; in_events|]); (split; [reflexivity|]);
    (split; [since; in_events|]); (split; [eassumption|]);
    (split; [reflexivity|]); (split; [reflexivity|]);
    since; cbn [creations omap list_omap]; rewrite creations_delivered;
    reflexivity.
Qed.

Lemma handleConvert_output_witness :
  fileRef w_selected = Some clip /\
  converts (env_ok [Byte.x01]) w_selected w_converted /\
  exists i out,
    stage w_converted = Stage.complete /\
    In (Exec i (execArgs (inputName (name clip))))
      (events_since w_selected w_converted) /\
    resultUrl w_converted = Some (nextUrl w_selected) /\
    objectUrls w_converted
      = <[nextUrl w_selected := OfBlob out "video/mp4"]> (objectUrls w_selected).
Proof.
  assert (F : fileRef w_selected = Some clip) by (vm_compute; reflexivity).
  assert (C : converts (env_ok [Byte.x01]) w_selected w_converted)
    by (vm_compute; reflexivity).
  split; [exact F|]. split; [exact C|].
  destruct (handleConvert_output (env_ok [Byte.x01]) w_selected clip
              w_converted F C)
    as (i & out & _ & Hs & Hx & _ & _ & _ & Hr & Hu & _).
  exists i, out. exact (conj Hs (conj Hx (conj Hr Hu))).
Defined.

(** ** Handles across conversions *)

Lemma release_lookup_ne slot (m : gmap Url UrlTarget) u :
  slot <> Some u -> release slot m !! u = m !! u.
Proof.
  destruct slot as [v|]; [|reflexivity]. intros H. cbn.
  apply lookup_delete_ne. congruence.
Qed.

(** What [handleConvert] does to the registry and the slots: nothing, or,
    on success, one insertion at the next URL, stored in the result slot.
    It revokes nothing on either path. *)
Lemma handleConvert_registry env w w' :
  handleConvert env w = (Ok tt, w') ->
  sourceUrl w' = sourceUrl w /\
  ((objectUrls w' = objectUrls w /\ resultUrl w' = resultUrl w /\
    nextUrl w' = nextUrl w) \/
   (exists out,
      stage w' = Stage.complete /\
      objectUrls w' = <[nextUrl w := OfBlob out "video/mp4"]> (objectUrls w) /\
      resultUrl w' = Some (nextUrl w) /\ nextUrl w' = S (nextUrl w))).
Proof.
  destruct w as [st msg pr src res fn err ff fr urls nu ni tr].
  destruct env as [imp ld fetch del wr ex rd].
  destruct fr as [f|], ff as [i|]; eval_run; outcome; run;
    (split; [reflexivity|]);
    first [ left; repeat split; reflexivity
          | right; eexists; repeat split; reflexivity ].
Qed.

Lemma handleFileChange_registry f w w' :
  handleFileChange (Some f) w = (Ok tt, w') ->
  objectUrls w'
    = <[nextUrl w := OfFile f]>
        (release (resultUrl w) (release (sourceUrl w) (objectUrls w))) /\
  sourceUrl w' = Some (nextUrl w) /\ resultUrl w' = None /\
  nextUrl w' = S (nextUrl w).
Proof.
  destruct w as [st msg pr src res fn err ff fr urls nu ni tr].
  destruct src as [s|], res as [r|]; run; intros [= <-]; run;
    repeat split; reflexivity.
Qed.

Lemma effectCleanup_registry w w' :
  effectCleanup w = (Ok tt, w') ->
  objectUrls w' = release (resultUrl w) (release (sourceUrl w) (objectUrls w)) /\
  sourceUrl w' = None /\ resultUrl w' = None /\ nextUrl w' = nextUrl w.
Proof.
  destruct w as [st msg pr src res fn err ff fr urls nu ni tr].
  destruct src as [s|], res as [r|]; run; intros [= <-]; run;
    repeat split; reflexivity.
Qed.

(** A conversion that succeeds inserts one handle and revokes none. *)
Lemma converts_registry env w w' :
  converts env w w' ->
  exists out,
    objectUrls w' = <[nextUrl w := OfBlob out "video/mp4"]> (objectUrls w) /\
    resultUrl w' = Some (nextUrl w) /\ sourceUrl w' = sourceUrl w /\
    nextUrl w' = S (nextUrl w).
Proof.
  destruct w as [st msg pr src res fn err ff fr urls nu ni tr].
  destruct env as [imp ld fetch del wr ex rd]. unfold converts.
  destruct fr as [f|], ff as [i|]; eval_run; outcome; run;
    eexists; repeat split; reflexivity.
Qed.

(** The handle a successful conversion supersedes is leaked: still live,
    and no longer held by any slot. *)
Lemma handleConvert_supersedes env w w' u :
  converts env w w' ->
  resultUrl w = Some u -> (u < nextUrl w)%nat -> live u w ->
  sourceUrl w <> Some u ->
  leaked u w'.
Proof.
  intros Hc Hres Hlt Hlive Hsrc.
  destruct (converts_registry env w w' Hc) as (out & Hu & Hr & Hs & Hn).
  unfold leaked, live in *. rewrite Hu, Hr, Hs, Hn.
  rewrite lookup_insert_ne by lia.
  repeat split; [assumption | lia | assumption | intros [= Heq]; lia].
Qed.

(** No handler ever releases a leaked handle. *)
Lemma leaked_later u w w' : later w w' -> leaked u w -> leaked u w'.
Proof.
  induction 1 as [| file w w1 w2 _ IH E | env w w1 w2 _ IH E | w w1 w2 _ IH E];
    intros H; [assumption | | | ]; specialize (IH H);
    destruct IH as (Hlive & Hlt & Hsrc & Hres); unfold leaked, live in *.
  - destruct file as [f|]; [|injection E as <-; auto].
    destruct (handleFileChange_registry f w1 w2 E) as (Hu & Hs & Hr & Hn).
    rewrite Hu, Hs, Hr, Hn. rewrite lookup_insert_ne by lia.
    rewrite !release_lookup_ne by assumption.
    repeat split; [assumption | lia | intros [= Heq]; lia | discriminate].
  - destruct (handleConvert_registry env w1 w2 E)
      as [Hs [(Hu & Hr & Hn)|(out & _ & Hu & Hr & Hn)]];
      rewrite Hu, Hs, Hr, Hn.
    + auto.
    + rewrite lookup_insert_ne by lia.
      repeat split; [assumption | lia | assumption | intros [= Heq]; lia].
  - destruct (effectCleanup_registry w1 w2 E) as (Hu & Hs & Hr & Hn).
    rewrite Hu, Hs, Hr, Hn. rewrite !release_lookup_ne by assumption.
    repeat split; [assumption | lia | discriminate | discriminate].
Qed.


(** The superseded handle stays live in every later state. *)
Lemma reconversion_leak_is_permanent w :
  later w_reconverted w -> leaked 1%nat w.
Proof.
  intros L. apply (leaked_later 1%nat w_reconverted w L).
  apply (handleConvert_supersedes (env_ok [Byte.x02]) w_converted).
  - vm_compute. reflexivity.
  - vm_compute. reflexivity.
  - vm_compute. lia.
  - exists (OfBlob [Byte.x01] "video/mp4"). vm_compute. reflexivity.
  - vm_compute. discriminate.
Qed.

(** ** Progress (lines 48-52, 106, 147, 161) *)

Lemma computed_bounds p : (0 <= p <= 1)%Q -> 0 <= computed p <= 97.
Proof.
  intros [Hlo Hhi]. unfold computed, Math_round. split; [|apply Z.le_min_l].
  apply Z.min_glb; [lia|].
  change 0 with (Qfloor 0). apply Qfloor_resp_le. lra.
Qed.

Lemma Forall_computed ps :
  Forall (fun p => 0 <= p <= 1)%Q ps ->
  Forall (fun n => 0 <= n <= 97) (map computed ps).
Proof.
  induction 1 as [|p ps Hp _ IH]; constructor;
    [now apply computed_bounds|exact IH].
Qed.

(** C5 (as amended): during a conversion whose engine fractions lie in
    [0, 1], every progress value set before the finalize step lies in
    [0, 97]: 5 and 0 while bootstrapping, 8 on entering 'processing', then
    [min 97 (round (p * 100))] for each fraction [p]; the values set are an
    initial segment of that sequence followed by 98 and 100, the whole of
    it when the conversion succeeds, and without 100 when it does not. *)
Theorem progress_before_finalize env w f :
  fileRef w = Some f ->
  Forall (fun p => 0 <= p <= 1)%Q
    (fst (on_exec env (execArgs (inputName (name f))))) ->
  let ps := fst (on_exec env (execArgs (inputName (name f)))) in
  let w' := snd (handleConvert env w) in
  let values := progress_values (events_since w w') in
  Forall (fun n => 0 <= n <= 97) (before_finalize w ps) /\
  (exists rest, before_finalize w ps ++ [98; 100] = values ++ rest) /\
  (stage w' = Stage.complete -> values = before_finalize w ps ++ [98; 100]) /\
  (stage w' <> Stage.complete -> ~ In 100 values).
Proof.
  destruct w as [st msg pr src res fn err ff fr urls nu ni tr].
  destruct env as [imp ld fetch del wr ex rd].
  cbn [fileRef on_exec]. intros -> Hps. cbv zeta.
  apply Forall_computed in Hps.
  assert (Hno : ~ In 100 (map computed (ex (execArgs (inputName (name f)))).1)).
  { intros Hin. rewrite List.Forall_forall in Hps. apply Hps in Hin. lia. }
  split.
  { unfold before_finalize. cbn [ffmpegRef]. destruct ff; cbn [app];
      repeat (apply Forall_cons_2; [lia|]); exact Hps. }
  clear Hps. unfold before_finalize. cbn [ffmpegRef].
  destruct ff as [i|]; eval_run; values; (split; [|split]).
  all: try (eexists; cbn [app]; rewrite <- ?app_assoc; cbn [app]; reflexivity).
  all: try (exists []; now rewrite app_nil_r).
  all: try (intros H; try discriminate H; reflexivity).
  all: intros H; try (exfalso; apply H; reflexivity).
  all: cbn [In]; rewrite ?in_app_iff; cbn [In]; intuition lia.
Qed.

Lemma env_ok_fractions out args :
  Forall (fun p => 0 <= p <= 1)%Q (fst (on_exec (env_ok out) args)).
Proof. repeat constructor; cbn; unfold Qle; cbn; lia. Qed.

Lemma progress_before_finalize_witness :
  fileRef w_converted = Some clip /\
  Forall (fun p => 0 <= p <= 1)%Q
    (fst (on_exec (env_ok [Byte.x02]) (execArgs (inputName (name clip))))) /\
  Forall (fun n => 0 <= n <= 97)
    (before_finalize w_converted
       (fst (on_exec (env_ok [Byte.x02]) (execArgs (inputName (name clip)))))).
Proof.
  assert (F : fileRef w_converted = Some clip) by (vm_compute; reflexivity).
  split; [exact F|]. split; [apply env_ok_fractions|].
  exact (proj1 (progress_before_finalize (env_ok [Byte.x02]) w_converted clip
                  F (env_ok_fractions _ _))).
Defined.

(** C5 (as stated) fails: with an instance cached and the engine reporting
    the fractions 0, 1/2 and 1, the values set are 8, 0, 50, 97, 98, 100;
    the second is below the first. *)
Lemma progress_not_monotone :
  Forall (fun p => 0 <= p <= 1)%Q
    (fst (on_exec (env_ok [Byte.x02]) (execArgs (inputName (name clip))))) /\
  progress_values (events_since w_converted w_reconverted)
    = [8; 0; 50; 97; 98; 100] /\
  nondecreasing (progress_values (events_since w_converted w_reconverted))
    = false.
Proof.
  split; [apply env_ok_fractions|]. split; vm_compute; reflexivity.
Qed.

(** ** Reachable states *)

(** The state [w_booting] is the one the first request is suspended in:
    the bootstrap continues from it with the import. *)
Example w_booting_inside_bootstrap :
  trace w_core_ready
    = trace w_booting ++
      [ImportFFmpeg; NewFFmpeg 0%nat; OnProgress 0%nat; Load 0%nat;
       SetStage Stage.ready; SetProgress 0].
Proof. vm_compute. reflexivity. Qed.

(** In every state reached from the initial one the slots hold handles
    that were handed out earlier. *)
Lemma slots_fresh_later w : later initial w -> slots_fresh w.
Proof.
  remember initial as w0 eqn:E0.
  induction 1 as [| file w w1 w2 _ IH E | env w w1 w2 _ IH E | w w1 w2 _ IH E];
    [subst; exact slots_fresh_initial | | | ]; specialize (IH E0).
  - eapply slots_fresh_handleFileChange; eassumption.
  - destruct (handleConvert_registry env w1 w2 E)
      as [Hs [(Hu & Hr & Hn)|(out & _ & Hu & Hr & Hn)]];
      intros u; rewrite Hs, Hr, Hn; intros Hslot.
    + apply IH, Hslot.
    + destruct Hslot as [Hslot|[= <-]]; [|lia].
      assert (u < nextUrl w1)%nat by (apply IH; now left). lia.
  - destruct (effectCleanup_registry w1 w2 E) as (Hu & Hs & Hr & Hn).
    intros u. rewrite Hs, Hr. intros [[=]|[=]].
Qed.

(** * Further properties of the code *)

(** ** The engine input name (line 110) *)

Lemma split_dotless s : dotless s = true -> Js.split "." s = [s].
Proof.
  induction s as [|c rest IH]; [reflexivity|]. cbn [dotless Js.split].
  intros H. apply andb_prop in H as [Hc Hrest].
  apply negb_true_iff in Hc. rewrite Hc, (IH Hrest). reflexivity.
Qed.

Lemma split_at_separator sep a b :
  exists segs, segs <> [] /\
    Js.split sep (a ++ String sep b)%string = segs ++ Js.split sep b.
Proof.
  induction a as [|c rest (segs & Hne & IH)]; simpl.
  - rewrite Ascii.eqb_refl. exists [EmptyString]. split; [discriminate|reflexivity].
  - rewrite IH. destruct (Ascii.eqb c sep).
    + exists (EmptyString :: segs). split; [discriminate|reflexivity].
    + destruct segs as [|s0 ss]; [contradiction|].
      exists (String c s0 :: ss). split; [discriminate|reflexivity].
Qed.

Lemma sanitized_all_az09 s : all_az09 (sanitized s) = true.
Proof.
  unfold sanitized. induction s as [|c rest IH]; [reflexivity|].
  cbn [Js.toLowerCase Js.strip_non_az09].
  destruct (Js.is_az09 (Js.lower_char c)) eqn:E; [|exact IH].
  cbn [all_az09]. now rewrite E, IH.
Qed.

Lemma lower_char_az09 c : Js.is_az09 c = true -> Js.lower_char c = c.
Proof.
  unfold Js.is_az09, Js.lower_char. cbv zeta.
  destruct (Nat.leb_spec 65 (nat_of_ascii c)), (Nat.leb_spec (nat_of_ascii c) 90);
    cbn [andb]; try reflexivity.
  destruct (Nat.leb_spec 97 (nat_of_ascii c)), (Nat.leb_spec (nat_of_ascii c) 122),
           (Nat.leb_spec 48 (nat_of_ascii c)), (Nat.leb_spec (nat_of_ascii c) 57);
    cbn; intros; try discriminate; lia.
Qed.

Lemma sanitized_fixed s : all_az09 s = true -> sanitized s = s.
Proof.
  unfold sanitized. induction s as [|c rest IH]; [reflexivity|].
  cbn [all_az09]. intros H. apply andb_prop in H as [Hc Hrest].
  cbn [Js.toLowerCase Js.strip_non_az09].
  rewrite (lower_char_az09 c Hc), Hc, (IH Hrest). reflexivity.
Qed.

(** X1: the extension is taken from the text after the last dot only:
    for a name [stem.ext] with no dot in [ext], and for a name [ext] with
    no dot at all, the engine input name is 'source.' followed by [ext]
    lower-cased and stripped of every character outside [a-z0-9]. *)
Theorem inputName_after_last_dot ext :
  dotless ext = true ->
  inputName ext = ("source." ++ sanitized ext)%string /\
  forall stem,
    inputName (stem ++ "." ++ ext)%string = ("source." ++ sanitized ext)%string.
Proof.
  intros H. unfold inputName, derivedExtension, Js.pop. split.
  - now rewrite (split_dotless ext H).
  - intros stem.
    destruct (split_at_separator "." stem ext) as (segs & Hne & E).
    change ("." ++ ext)%string with (String "." ext). rewrite E.
    rewrite (split_dotless ext H), last_snoc. reflexivity.
Qed.

Lemma inputName_after_last_dot_witness :
  dotless "Gz!" = true /\
  inputName ("clip.tar" ++ "." ++ "Gz!")%string = ("source." ++ sanitized "Gz!")%string.
Proof.
  split; [reflexivity|].
  exact (proj2 (inputName_after_last_dot "Gz!" eq_refl) "clip.tar").
Defined.

(** X2: for every file name the engine input name is 'source.' followed
    by characters of [a-z0-9] only, sanitizing that extension again changes
    nothing, and the input name is never the output name 'realified.mp4'. *)
Theorem inputName_alphabet n :
  exists ext,
    inputName n = ("source." ++ ext)%string /\
    all_az09 ext = true /\
    sanitized ext = ext /\
    inputName n <> outputName.
Proof.
  unfold inputName, derivedExtension, Js.pop.
  destruct (last (Js.split "." n)) as [seg|] eqn:E.
  - exists (sanitized seg). cbn.
    pose proof (sanitized_all_az09 seg) as Ha.
    repeat split; [exact Ha | now apply sanitized_fixed | discriminate].
  - apply last_None in E. now apply split_nonempty in E.
Qed.

(** ** Releasing the previews (lines 25-34, 88-93) *)


(** X4: the effect cleanup empties both slots and the staged-file ref and
    keeps stage and file name; afterwards the convert button is disabled
    unless the stage is 'loadingCore', and a conversion request only sets
    the validation message. *)
Theorem effectCleanup_unstages env w :
  exists w',
    effectCleanup w = (Ok tt, w') /\
    fileRef w' = None /\ sourceUrl w' = None /\ resultUrl w' = None /\
    stage w' = stage w /\ fileName w' = fileName w /\
    convertDisabled w' = negb (Stage.eqb (stage w) Stage.loadingCore) /\
    handleConvert env w'
      = (Ok tt, with_error (Some "Upload an animated clip first.") w').
Proof.
  destruct w as [st msg pr src res fn err ff fr urls nu ni tr].
  destruct src as [s|], res as [r|]; run;
    (eexists; split; [reflexivity|]); run;
    unfold convertDisabled; cbn; destruct st; repeat split; reflexivity.
Qed.

(** ** The bootstrap (lines 41-65) *)

(** X5: with no instance cached and import and load succeeding,
    [ensureFFmpeg] returns a new instance and caches it, ends in stage
    'ready' with progress 0, registers the progress handler before
    loading, and touches neither the previews, the staged file nor the
    error. *)
Theorem ensureFFmpeg_bootstrap env w :
  ffmpegRef w = None ->
  on_import env = Ok tt -> on_load env = Ok tt ->
  exists w',
    ensureFFmpeg env w = (Ok (nextInstance w), w') /\
    ffmpegRef w' = Some (nextInstance w) /\
    nextInstance w' = S (nextInstance w) /\
    stage w' = Stage.ready /\ progress w' = 0 /\
    events_since w w'
      = [SetStage Stage.loadingCore; SetProgress 5; ImportFFmpeg;
         NewFFmpeg (nextInstance w); OnProgress (nextInstance w);
         Load (nextInstance w); SetStage Stage.ready; SetProgress 0] /\
    objectUrls w' = objectUrls w /\ sourceUrl w' = sourceUrl w /\
    resultUrl w' = resultUrl w /\ fileRef w' = fileRef w /\ error w' = error w.
Proof.
  destruct w as [st msg pr src res fn err ff fr urls nu ni tr].
  destruct env as [imp ld fetch del wr ex rd].
  cbn [ffmpegRef on_import on_load]. intros -> -> ->. run.
  eexists. split; [reflexivity|]. run.
  repeat split. since. reflexivity.
Qed.

Lemma ensureFFmpeg_bootstrap_witness :
  ffmpegRef w_selected = None /\
  exists w', ensureFFmpeg (env_ok []) w_selected = (Ok (nextInstance w_selected), w') /\
             ffmpegRef w' = Some (nextInstance w_selected).
Proof.
  assert (F : ffmpegRef w_selected = None) by (vm_compute; reflexivity).
  split; [exact F|].
  destruct (ensureFFmpeg_bootstrap (env_ok []) w_selected F eq_refl eq_refl)
    as (w' & E & Hr & _).
  exists w'. exact (conj E Hr).
Defined.




(** ** The steps of a conversion (lines 104-161) *)

(** X7: with an instance cached, a conversion whose fetch, write, exec and
    read succeed performs exactly these steps in this order: fetch, delete
    input, delete output, write the fetched bytes under the input name,
    exec, the progress reports, read the output, delete input, delete
    output (skipped when the delete before it threw), create the result
    URL; it ends 'complete' with progress 100 and no error. *)
Theorem conversion_event_order env w i f data out :
  ffmpegRef w = Some i -> fileRef w = Some f ->
  on_fetchFile env f = Ok data ->
  on_writeFile env (inputName (name f)) data = Ok tt ->
  snd (on_exec env (execArgs (inputName (name f)))) = Ok tt ->
  on_readFile env outputName = Ok out ->
  exists w',
    handleConvert env w = (Ok tt, w') /\
    stage w' = Stage.complete /\ progress w' = 100 /\ error w' = None /\
    events_since w w'
      = [SetStage Stage.processing; SetProgress 8; FetchFile f;
         DeleteFile i (inputName (name f)); DeleteFile i outputName;
         WriteFile i (inputName (name f)) data;
         Exec i (execArgs (inputName (name f)))]
        ++ map (fun p => SetProgress (computed p))
             (fst (on_exec env (execArgs (inputName (name f)))))
        ++ [SetProgress 98; ReadFile i outputName;
            DeleteFile i (inputName (name f))]
        ++ match on_deleteFile env 2 (inputName (name f)) with
           | Ok _ => [DeleteFile i outputName]
           | Throw _ => []
           end
        ++ [CreateObjectURL (nextUrl w) (OfBlob out "video/mp4");
            SetStage Stage.complete; SetProgress 100].
Proof.
  destruct w as [st msg pr src res fn err ff fr urls nu ni tr].
  destruct env as [imp ld fetch del wr ex rd].
  cbn [ffmpegRef fileRef on_fetchFile on_writeFile on_exec on_readFile on_deleteFile].
  intros -> -> Hf Hw Hx Hr. run. rewrite Hf. run.
  destruct (del 0%nat _), (del 1%nat _); run; rewrite Hw; run;
    rewrite deliver_spec; run; rewrite Hx; run; rewrite Hr; run;
    destruct (del 2%nat _); run; try destruct (del 3%nat _); run;
    (eexists; split; [reflexivity|]); run; (repeat split); since;
    cbn [app]; rewrite <- ?app_assoc; reflexivity.
Qed.

Lemma conversion_event_order_witness :
  ffmpegRef w_converted = Some 0%nat /\ fileRef w_converted = Some clip /\
  exists w', handleConvert (env_ok [Byte.x02]) w_converted = (Ok tt, w') /\
             stage w' = Stage.complete /\ progress w' = 100.
Proof.
  assert (F : ffmpegRef w_converted = Some 0%nat) by (vm_compute; reflexivity).
  assert (G : fileRef w_converted = Some clip) by (vm_compute; reflexivity).
  split; [exact F|]. split; [exact G|].
  destruct (conversion_event_order (env_ok [Byte.x02]) w_converted 0%nat clip
              (contents clip) [Byte.x02] F G eq_refl eq_refl eq_refl eq_refl)
    as (w' & E & Hs & Hp & _).
  exists w'. exact (conj E (conj Hs Hp)).
Defined.

(** X8: a conversion of a staged file ends in 'complete' exactly when the
    bootstrap (if one is needed), the fetch, the write, exec and the read
    all succeed; what the four [deleteFile] calls do has no influence. *)
Theorem conversion_succeeds_iff env w f :
  fileRef w = Some f ->
  first_failure env w f = None <->
  exists w', handleConvert env w = (Ok tt, w') /\ stage w' = Stage.complete.
Proof.
  destruct w as [st msg pr src res fn err ff fr urls nu ni tr].
  destruct env as [imp ld fetch del wr ex rd].
  cbn [fileRef]. intros ->. unfold first_failure.
  destruct ff as [i|]; eval_run; (split; [intros H | intros (w' & E & H)]);
    try discriminate H; try reflexivity;
    try (eexists; split; reflexivity);
    apply Ok_inv in E; destruct E as [_ <-]; discriminate H.
Qed.

Lemma conversion_succeeds_iff_witness :
  fileRef w_selected = Some clip /\
  (first_failure (env_ok []) w_selected clip = None <->
   exists w', handleConvert (env_ok []) w_selected = (Ok tt, w') /\
              stage w' = Stage.complete).
Proof.
  assert (G : fileRef w_selected = Some clip) by (vm_compute; reflexivity).
  split; [exact G|].
  exact (conversion_succeeds_iff (env_ok []) w_selected clip G).
Defined.

(** X9: however it ends, a conversion request returns normally, leaves
    the source slot, the staged file and the file name as they were,
    revokes no object URL, and keeps every live handle live. *)
Theorem handleConvert_keeps_source env w :
  exists w',
    handleConvert env w = (Ok tt, w') /\
    sourceUrl w' = sourceUrl w /\ fileRef w' = fileRef w /\
    fileName w' = fileName w /\
    Forall (fun e => is_revocation e = false) (events_since w w') /\
    (forall u, live u w -> live u w').
Proof.
  destruct w as [st msg pr src res fn err ff fr urls nu ni tr].
  destruct env as [imp ld fetch del wr ex rd]. unfold live.
  destruct fr as [f|], ff as [i|]; eval_run;
    (eexists; split; [reflexivity|]);
    (split; [reflexivity|]); (split; [reflexivity|]); (split; [reflexivity|]);
    (split; [first [since | unfold events_since; run; rewrite drop_all];
            forall_events|]); run; intros u Hu;
    try exact Hu;
    (destruct (decide (nu = u)) as [->|Hne];
     [rewrite lookup_insert_eq; eexists; reflexivity
     |rewrite lookup_insert_ne by exact Hne; exact Hu]).
Qed.




(** ** Invariants of the preview slots *)









(** ** The progress mapping (line 49) *)



(** X14: when exec throws after the input was written, the run goes
    straight to the catch block: neither the read nor any [deleteFile]
    follows, so the staged input entry is left in the engine. *)
Theorem failed_exec_skips_cleanup env w i f data t :
  ffmpegRef w = Some i -> fileRef w = Some f ->
  on_fetchFile env f = Ok data ->
  on_writeFile env (inputName (name f)) data = Ok tt ->
  snd (on_exec env (execArgs (inputName (name f)))) = Throw t ->
  exists w',
    handleConvert env w = (Ok tt, w') /\
    stage w' = Stage.error /\
    events_since w w'
      = [SetStage Stage.processing; SetProgress 8; FetchFile f;
         DeleteFile i (inputName (name f)); DeleteFile i outputName;
         WriteFile i (inputName (name f)) data;
         Exec i (execArgs (inputName (name f)))]
        ++ map (fun p => SetProgress (computed p))
             (fst (on_exec env (execArgs (inputName (name f)))))
        ++ [ConsoleError t; SetStage Stage.error].
Proof.
  destruct w as [st msg pr src res fn err ff fr urls nu ni tr].
  destruct env as [imp ld fetch del wr ex rd].
  cbn [ffmpegRef fileRef on_fetchFile on_writeFile on_exec].
  intros -> -> Hf Hw Hx. run. rewrite Hf. run.
  destruct (del 0%nat _), (del 1%nat _); run; rewrite Hw; run;
    rewrite deliver_spec; run; rewrite Hx; run;
    (eexists; split; [reflexivity|]); (split; [reflexivity|]); since;
    cbn [app]; rewrite <- ?app_assoc; reflexivity.
Qed.

Lemma failed_exec_skips_cleanup_witness :
  ffmpegRef w_core_ready = Some 0%nat /\ fileRef w_core_ready = Some clip /\
  exists w', handleConvert env_exec_fails w_core_ready = (Ok tt, w') /\
             stage w' = Stage.error.
Proof.
  assert (F : ffmpegRef w_core_ready = Some 0%nat) by (vm_compute; reflexivity).
  assert (G : fileRef w_core_ready = Some clip) by (vm_compute; reflexivity).
  split; [exact F|]. split; [exact G|].
  destruct (failed_exec_skips_cleanup env_exec_fails w_core_ready 0%nat clip
              (contents clip) (JsError "Aborted()") F G eq_refl eq_refl eq_refl)
    as (w' & E & Hs & _).
  exists w'. exact (conj E Hs).
Defined.
